(** * The image-editor controller of [src/App.tsx]

    The component keeps five pieces of state ([originalImage], [editedImage],
    [prompt], [isLoading], [error]) and has two asynchronous handlers,
    [handleImageUpload] and [handleGenerateClick].  Each handler is embedded
    as a small program over the state setters and the two operations it
    awaits (the [FileReader] read and the call of [editImageWithPrompt]), so
    that the order of the setter calls, the arguments of the external call
    and what happens between a suspension and its resumption are all
    visible. *)

From Stdlib Require Import List Arith NArith Bool Ascii String Lia.
Import ListNotations.

Local Open Scope N_scope.

(** ** JavaScript strings

    A JavaScript string is a sequence of UTF-16 code units. *)
Module JS.

Definition jsstring := list N.

(** A string literal of the source (ASCII only). *)
Definition str (s : string) : jsstring :=
  map N_of_ascii (list_ascii_of_string s).

(** ECMAScript [WhiteSpace] and [LineTerminator] code units: what
    [String.prototype.trim] removes. *)
Definition isWhiteSpace (c : N) : bool :=
  (c =? 9) || (c =? 10) || (c =? 11) || (c =? 12) || (c =? 13) ||
  (c =? 32) || (c =? 160) || (c =? 5760) ||
  ((8192 <=? c) && (c <=? 8202)) ||
  (c =? 8232) || (c =? 8233) || (c =? 8239) || (c =? 8287) ||
  (c =? 12288) || (c =? 65279).

Fixpoint trimStart (s : jsstring) : jsstring :=
  match s with
  | [] => []
  | c :: s' => if isWhiteSpace c then trimStart s' else s
  end.

Definition trimEnd (s : jsstring) : jsstring :=
  rev (trimStart (rev s)).

(** [s.trim()] *)
Definition trim (s : jsstring) : jsstring :=
  trimEnd (trimStart s).

(** [s.startsWith(p)] *)
Fixpoint startsWith (s p : jsstring) : bool :=
  match p, s with
  | [], _ => true
  | _ :: _, [] => false
  | a :: p', c :: s' => (c =? a) && startsWith s' p'
  end.

(** [s.split(sep)] for a separator of one code unit: the pieces between
    the occurrences of [sep], never an empty array. *)
Fixpoint split (sep : N) (s : jsstring) : list jsstring :=
  match s with
  | [] => [[]]
  | c :: s' =>
      if c =? sep then [] :: split sep s'
      else match split sep s' with
           | [] => [[c]]
           | w :: ws => (c :: w) :: ws
           end
  end.

(** Truthiness of a value of type [string | null | undefined]: the empty
    string is falsy, like [null]. *)
Definition truthy (v : option jsstring) : bool :=
  match v with
  | Some (_ :: _) => true
  | _ => false
  end.

Definition comma : N := 44.

End JS.
Import JS.

(** ** The component's data *)
Module App.

(** The part of a DOM [File] the component looks at, and its name. *)
Record File := { name : jsstring; type : jsstring }.

(** [interface ImageFile].  [base64] is what [fileToBase64] resolved with,
    which is [undefined] ([None]) when the data URL holds no comma. *)
Record ImageFile := { file : File; base64 : option jsstring }.

(** The five [useState] cells; [None] is [null]. *)
Record State := {
  originalImage : option ImageFile;
  editedImage : option jsstring;
  prompt : jsstring;
  isLoading : bool;
  error : option jsstring
}.

Definition defaultPrompt : jsstring :=
  str "From the uploaded image, please accurately isolate all human subjects and place them onto a uniform, neutral background. The output should be a new image featuring only the clear, high-resolution cutouts of the people.".

Definition initialState : State :=
  {| originalImage := None; editedImage := None; prompt := defaultPrompt;
     isLoading := false; error := None |}.

(** A call of one of the five state setters. *)
Inductive Setter :=
| setOriginalImage (v : option ImageFile)
| setEditedImage (v : option jsstring)
| setPrompt (v : jsstring)
| setIsLoading (v : bool)
| setError (v : option jsstring).

Definition apply_setter (s : Setter) (st : State) : State :=
  match s with
  | setOriginalImage v =>
      {| originalImage := v; editedImage := editedImage st;
         prompt := prompt st; isLoading := isLoading st; error := error st |}
  | setEditedImage v =>
      {| originalImage := originalImage st; editedImage := v;
         prompt := prompt st; isLoading := isLoading st; error := error st |}
  | setPrompt v =>
      {| originalImage := originalImage st; editedImage := editedImage st;
         prompt := v; isLoading := isLoading st; error := error st |}
  | setIsLoading v =>
      {| originalImage := originalImage st; editedImage := editedImage st;
         prompt := prompt st; isLoading := v; error := error st |}
  | setError v =>
      {| originalImage := originalImage st; editedImage := editedImage st;
         prompt := prompt st; isLoading := isLoading st; error := v |}
  end.

(** How a [FileReader] started with [readAsDataURL] ends: [onload] with
    the data URL in [reader.result], or [onerror]. *)
Inductive FileReaderEvent :=
| onload (result : jsstring)
| onerror.

(** A settled promise. *)
Inductive Settled (A E : Type) :=
| Resolved (a : A)
| Rejected (e : E).
Arguments Resolved {A E} a.
Arguments Rejected {A E} e.

(** ** Handlers as programs

    A handler calls setters and suspends at the two external operations;
    the continuation of a suspension takes the way the operation ended. *)
Inductive Prog :=
| Return
| Call (s : Setter) (k : Prog)
| readAsDataURL (f : File) (k : FileReaderEvent -> Prog)
| editImageWithPrompt (base64ImageData : option jsstring)
    (mimeType : jsstring) (prompt : jsstring)
    (k : Settled jsstring jsstring -> Prog).

Notation "s ;; k" := (Call s k) (at level 61, right associativity).

(** [fileToBase64]: resolves with [reader.result.split(',')[1]], rejects
    with the reader's error event. *)
Definition fileToBase64 (f : File)
    (k : Settled (option jsstring) unit -> Prog) : Prog :=
  readAsDataURL f (fun ev =>
    match ev with
    | onload result => k (Resolved (nth_error (split comma result) 1))
    | onerror => k (Rejected tt)
    end).

(** [e.target.files?.[0]]: [files] is [null] or a list of files. *)
Definition firstFile (files : option (list File)) : option File :=
  match files with
  | None => None
  | Some l => hd_error l
  end.

Definition handleImageUpload (files : option (list File)) : Prog :=
  match firstFile files with
  | Some f =>
      if startsWith (type f) (str "image/") then
        fileToBase64 f (fun r =>
          match r with
          | Resolved b64 =>
              setOriginalImage (Some {| file := f; base64 := b64 |}) ;;
              setEditedImage None ;;
              setError None ;;
              Return
          | Rejected _ =>
              setError (Some (str "Failed to read the image file.")) ;;
              Return
          end)
      else
        setError (Some (str "Please select a valid image file.")) ;; Return
  | None =>
      setError (Some (str "Please select a valid image file.")) ;; Return
  end.

(** The template literal [`data:${mimeType};base64,${resultBase64}`]. *)
Definition dataUri (mimeType resultBase64 : jsstring) : jsstring :=
  str "data:" ++ mimeType ++ str ";base64," ++ resultBase64.

(** [!s] for a string: true on the empty string only. *)
Definition isEmpty (s : jsstring) : bool :=
  match s with
  | [] => true
  | _ :: _ => false
  end.

(** [handleGenerateClick], closed over the [originalImage] and [prompt]
    of the render that created it (its [useCallback] dependencies). *)
Definition handleGenerateClick (st : State) : Prog :=
  match originalImage st with
  | None =>
      setError (Some (str "Please upload an image first.")) ;; Return
  | Some img =>
      if isEmpty (trim (prompt st)) then
        setError (Some (str "Please enter an editing prompt.")) ;; Return
      else
        setIsLoading true ;;
        setError None ;;
        setEditedImage None ;;
        editImageWithPrompt (base64 img) (type (file img)) (prompt st)
          (fun r =>
             match r with
             | Resolved resultBase64 =>
                 setEditedImage
                   (Some (dataUri (type (file img)) resultBase64)) ;;
                 setIsLoading false ;;
                 Return
             | Rejected err =>
                 setError (Some err) ;;
                 setIsLoading false ;;
                 Return
             end)
  end.

(** The [onChange] of the prompt's text area. *)
Definition handlePromptChange (value : jsstring) : Prog :=
  setPrompt value ;; Return.

End App.
Import App.

(** ** Running a handler

    A handler runs until it returns or suspends; the setter calls of one
    synchronous stretch are applied in order.  The trace keeps what the
    stretch did. *)
Module Run.

Inductive Action :=
| Called (s : Setter)
| ReadStarted (f : File)
| EditCalled (base64ImageData : option jsstring)
    (mimeType : jsstring) (prompt : jsstring).

(** A suspended handler: the operation it waits for and what it does
    when the operation ends. *)
Inductive Pending :=
| AwaitRead (f : File) (k : FileReaderEvent -> Prog)
| AwaitEdit (base64ImageData : option jsstring)
    (mimeType : jsstring) (prompt : jsstring)
    (k : Settled jsstring jsstring -> Prog).

Record Outcome := {
  final : State;
  trace : list Action;
  suspended : option Pending
}.

Fixpoint exec (p : Prog) (st : State) : Outcome :=
  match p with
  | Return => {| final := st; trace := []; suspended := None |}
  | Call s k =>
      let o := exec k (apply_setter s st) in
      {| final := final o; trace := Called s :: trace o;
         suspended := suspended o |}
  | readAsDataURL f k =>
      {| final := st; trace := [ReadStarted f];
         suspended := Some (AwaitRead f k) |}
  | editImageWithPrompt b m q k =>
      {| final := st; trace := [EditCalled b m q];
         suspended := Some (AwaitEdit b m q k) |}
  end.

Definition isEditCall (a : Action) : bool :=
  match a with
  | EditCalled _ _ _ => true
  | _ => false
  end.

Definition isRead (a : Action) : bool :=
  match a with
  | ReadStarted _ => true
  | _ => false
  end.

Definition setsLoading (a : Action) : bool :=
  match a with
  | Called (setIsLoading _) => true
  | _ => false
  end.

(** The states the component passes through while a trace is applied. *)
Fixpoint statesAlong (t : list Action) (st : State) : list State :=
  match t with
  | [] => [st]
  | Called s :: t' => st :: statesAlong t' (apply_setter s st)
  | _ :: t' => statesAlong t' st
  end.

(** One whole invocation of [handleGenerateClick] from [st] whose call
    of the collaborator, if it makes one, settles with [r] before anything
    else happens: the state at the end and everything the handler did. *)
Definition runGenerate (st : State) (r : Settled jsstring jsstring)
    : State * list Action :=
  let o := exec (handleGenerateClick st) st in
  match suspended o with
  | Some (AwaitEdit _ _ _ k) =>
      let o' := exec (k r) (final o) in
      (final o', trace o ++ trace o')
  | _ => (final o, trace o)
  end.

(** One whole invocation of [handleImageUpload] from [st] whose read, if
    it starts one, ends with [ev] before anything else happens. *)
Definition runUpload (files : option (list File)) (st : State)
    (ev : FileReaderEvent) : State * list Action :=
  let o := exec (handleImageUpload files) st in
  match suspended o with
  | Some (AwaitRead _ k) =>
      let o' := exec (k ev) (final o) in
      (final o', trace o ++ trace o')
  | _ => (final o, trace o)
  end.

End Run.
Import Run.

(** ** The component as an event system

    Between a suspension and its resumption the user may do anything the
    page allows, so the component is a state together with the handlers
    that are suspended. *)
Module Sys.

Record Config := {
  state : State;
  pending : list Pending;
  log : list Action
}.

Definition initial : Config :=
  {| state := initialState; pending := []; log := [] |}.

Inductive Event :=
| FileChange (files : option (list File))
| PromptChange (value : jsstring)
| GenerateClick
| ReadEnds (i : nat) (ev : FileReaderEvent)
| EditSettles (i : nat) (r : Settled jsstring jsstring).

Fixpoint removeNth {A : Type} (i : nat) (l : list A) : list A :=
  match i, l with
  | _, [] => []
  | O, _ :: l' => l'
  | S i', a :: l' => a :: removeNth i' l'
  end.

Definition optList {A : Type} (o : option A) : list A :=
  match o with
  | Some a => [a]
  | None => []
  end.

(** Run a handler, or the rest of one, in a configuration. *)
Definition launch (p : Prog) (rest : list Pending) (c : Config) : Config :=
  let o := exec p (state c) in
  {| state := final o;
     pending := rest ++ optList (suspended o);
     log := log c ++ trace o |}.

(** An event that resumes a handler needs that handler to be waiting
    for it; the other events always run. *)
Definition dispatch (c : Config) (e : Event) : option Config :=
  match e with
  | FileChange files => Some (launch (handleImageUpload files) (pending c) c)
  | PromptChange v => Some (launch (handlePromptChange v) (pending c) c)
  | GenerateClick =>
      Some (launch (handleGenerateClick (state c)) (pending c) c)
  | ReadEnds i ev =>
      match nth_error (pending c) i with
      | Some (AwaitRead _ k) =>
          Some (launch (k ev) (removeNth i (pending c)) c)
      | _ => None
      end
  | EditSettles i r =>
      match nth_error (pending c) i with
      | Some (AwaitEdit _ _ _ k) =>
          Some (launch (k r) (removeNth i (pending c)) c)
      | _ => None
      end
  end.

Fixpoint run (c : Config) (es : list Event) : option Config :=
  match es with
  | [] => Some c
  | e :: es' =>
      match dispatch c e with
      | Some c' => run c' es'
      | None => None
      end
  end.

Definition reachable (c : Config) : Prop :=
  exists es, run initial es = Some c.

End Sys.
Import Sys.

(** ** What the component renders *)
Module View.

Inductive PanelContent :=
| Spinner
| Img (src : jsstring)
| Children.

(** [ImagePanel]: the spinner while loading, else the image when
    [imageSrc] is truthy, else its children.  An absent prop is [None]. *)
Definition ImagePanel (imageSrc : option jsstring)
    (isLoading : option bool) : PanelContent :=
  match isLoading with
  | Some true => Spinner
  | _ =>
      match imageSrc with
      | Some (c :: s) => Img (c :: s)
      | _ => Children
      end
  end.

Inductive ButtonLabel := Generating | Generate.

Record Rendered := {
  originalPanel : PanelContent;
  promptValue : jsstring;
  promptDisabled : bool;
  buttonDisabled : bool;
  buttonLabel : ButtonLabel;
  alert : option jsstring;
  editedPanel : PanelContent
}.

Definition isNull {A : Type} (v : option A) : bool :=
  match v with
  | Some _ => false
  | None => true
  end.

Definition render (st : State) : Rendered :=
  {| originalPanel := ImagePanel None None;
     promptValue := prompt st;
     promptDisabled := isLoading st;
     buttonDisabled := isLoading st || isNull (originalImage st);
     buttonLabel := if isLoading st then Generating else Generate;
     alert := if truthy (error st) then error st else None;
     editedPanel := ImagePanel (editedImage st) (Some (isLoading st)) |}.

(** What the page lets the user do: a disabled control fires no event;
    the file input is never disabled. *)
Definition allowed (st : State) (e : Event) : bool :=
  match e with
  | PromptChange _ => negb (promptDisabled (render st))
  | GenerateClick => negb (buttonDisabled (render st))
  | _ => true
  end.

Fixpoint uiRun (c : Config) (es : list Event) : option Config :=
  match es with
  | [] => Some c
  | e :: es' =>
      if allowed (state c) e then
        match dispatch c e with
        | Some c' => uiRun c' es'
        | None => None
        end
      else None
  end.

Definition uiReachable (c : Config) : Prop :=
  exists es, uiRun initial es = Some c.

End View.
Import View.

(** ** Reachable configurations *)
Module Inv.

(** The stored image, when there is one, is of an image type. *)
Definition imageTyped (st : State) : Prop :=
  forall img, originalImage st = Some img ->
    startsWith (type (file img)) (str "image/") = true.

(** A suspended handler is one of the component's two handlers, stopped
    where it awaits. *)
Inductive fromHandler : Pending -> Prop :=
| fromUpload (files : option (list File)) (st : State) (p : Pending) :
    suspended (exec (handleImageUpload files) st) = Some p ->
    fromHandler p
| fromGenerate (st : State) (p : Pending) :
    imageTyped st ->
    suspended (exec (handleGenerateClick st) st) = Some p ->
    fromHandler p.

Definition isEditPending (p : Pending) : bool :=
  match p with
  | AwaitEdit _ _ _ _ => true
  | AwaitRead _ _ => false
  end.

Definition isGenerateClick (e : Event) : bool :=
  match e with
  | GenerateClick => true
  | _ => false
  end.

Definition isFileChange (e : Event) : bool :=
  match e with
  | FileChange _ => true
  | _ => false
  end.

Definition entersLoading (c c' : Config) : Prop :=
  isLoading (state c) = false /\ isLoading (state c') = true.

Definition entersError (c c' : Config) : Prop :=
  error (state c) = None /\ error (state c') <> None.

(** What holds of every configuration the handlers can lead to. *)
Record Good (c : Config) : Prop := {
  good_pending : Forall fromHandler (pending c);
  good_typed : imageTyped (state c);
  good_loading :
    isLoading (state c) = true -> editedImage (state c) = None;
  good_result :
    forall s, editedImage (state c) = Some s ->
      originalImage (state c) <> None /\
      exists m P, s = dataUri m P /\ startsWith m (str "image/") = true;
  good_edit_image :
    existsb isEditPending (pending c) = true ->
    originalImage (state c) <> None
}.

(** What holds in addition when the events are those the page allows. *)
Record UiGood (c : Config) : Prop := {
  ui_good : Good c;
  ui_one_edit :
    List.length (filter isEditPending (pending c)) =
    if isLoading (state c) then 1%nat else 0%nat
}.

(** The ten ways an event changes a configuration: each constructor is
    one path through a handler, up to its suspension or from it. *)
Inductive Step (c : Config) : Event -> Config -> Prop :=
| StepUploadRejected (files : option (list File)) :
    (firstFile files = None \/
     exists f, firstFile files = Some f /\
               startsWith (type f) (str "image/") = false) ->
    Step c (FileChange files)
      {| state :=
           apply_setter
             (setError (Some (str "Please select a valid image file.")))
             (state c);
         pending := pending c;
         log := log c ++
           [Called (setError
                      (Some (str "Please select a valid image file.")))] |}
| StepUploadStarted (files : option (list File)) (f : File)
    (k : FileReaderEvent -> Prog) :
    firstFile files = Some f ->
    startsWith (type f) (str "image/") = true ->
    fromHandler (AwaitRead f k) ->
    Step c (FileChange files)
      {| state := state c;
         pending := pending c ++ [AwaitRead f k];
         log := log c ++ [ReadStarted f] |}
| StepPrompt (v : jsstring) :
    Step c (PromptChange v)
      {| state := apply_setter (setPrompt v) (state c);
         pending := pending c;
         log := log c ++ [Called (setPrompt v)] |}
| StepGenerateNoImage :
    originalImage (state c) = None ->
    Step c GenerateClick
      {| state :=
           apply_setter
             (setError (Some (str "Please upload an image first.")))
             (state c);
         pending := pending c;
         log := log c ++
           [Called (setError (Some (str "Please upload an image first.")))] |}
| StepGenerateBlank (img : ImageFile) :
    originalImage (state c) = Some img ->
    trim (prompt (state c)) = [] ->
    Step c GenerateClick
      {| state :=
           apply_setter
             (setError (Some (str "Please enter an editing prompt.")))
             (state c);
         pending := pending c;
         log := log c ++
           [Called (setError
                      (Some (str "Please enter an editing prompt.")))] |}
| StepGenerateStarted (img : ImageFile)
    (k : Settled jsstring jsstring -> Prog) :
    originalImage (state c) = Some img ->
    trim (prompt (state c)) <> [] ->
    fromHandler
      (AwaitEdit (base64 img) (type (file img)) (prompt (state c)) k) ->
    Step c GenerateClick
      {| state :=
           {| originalImage := Some img; editedImage := None;
              prompt := prompt (state c); isLoading := true;
              error := None |};
         pending := pending c ++
           [AwaitEdit (base64 img) (type (file img)) (prompt (state c)) k];
         log := log c ++
           [Called (setIsLoading true); Called (setError None);
            Called (setEditedImage None);
            EditCalled (base64 img) (type (file img))
              (prompt (state c))] |}
| StepReadLoaded (i : nat) (f : File) (k : FileReaderEvent -> Prog)
    (result : jsstring) :
    nth_error (pending c) i = Some (AwaitRead f k) ->
    startsWith (type f) (str "image/") = true ->
    Step c (ReadEnds i (onload result))
      {| state :=
           {| originalImage :=
                Some {| file := f;
                        base64 := nth_error (split comma result) 1 |};
              editedImage := None; prompt := prompt (state c);
              isLoading := isLoading (state c); error := None |};
         pending := removeNth i (pending c);
         log := log c ++
           [Called (setOriginalImage
                      (Some {| file := f;
                               base64 :=
                                 nth_error (split comma result) 1 |}));
            Called (setEditedImage None); Called (setError None)] |}
| StepReadFailed (i : nat) (f : File) (k : FileReaderEvent -> Prog) :
    nth_error (pending c) i = Some (AwaitRead f k) ->
    Step c (ReadEnds i onerror)
      {| state :=
           apply_setter
             (setError (Some (str "Failed to read the image file.")))
             (state c);
         pending := removeNth i (pending c);
         log := log c ++
           [Called (setError
                      (Some (str "Failed to read the image file.")))] |}
| StepEditResolved (i : nat) (b : option jsstring) (m q : jsstring)
    (k : Settled jsstring jsstring -> Prog) (P : jsstring) :
    nth_error (pending c) i = Some (AwaitEdit b m q k) ->
    startsWith m (str "image/") = true ->
    Step c (EditSettles i (Resolved P))
      {| state :=
           {| originalImage := originalImage (state c);
              editedImage := Some (dataUri m P);
              prompt := prompt (state c); isLoading := false;
              error := error (state c) |};
         pending := removeNth i (pending c);
         log := log c ++
           [Called (setEditedImage (Some (dataUri m P)));
            Called (setIsLoading false)] |}
| StepEditRejected (i : nat) (b : option jsstring) (m q : jsstring)
    (k : Settled jsstring jsstring -> Prog) (M : jsstring) :
    nth_error (pending c) i = Some (AwaitEdit b m q k) ->
    Step c (EditSettles i (Rejected M))
      {| state :=
           {| originalImage := originalImage (state c);
              editedImage := editedImage (state c);
              prompt := prompt (state c); isLoading := false;
              error := Some M |};
         pending := removeNth i (pending c);
         log := log c ++
           [Called (setError (Some M)); Called (setIsLoading false)] |}.

(** The two halves of the exclusion property as the specification words
    it, over what the page allows. *)
Definition loadingErrorExclusive : Prop :=
  forall c, uiReachable c ->
    ~ (isLoading (state c) = true /\ error (state c) <> None).

Definition enteringClearsResult : Prop :=
  forall c e c', uiReachable c ->
    allowed (state c) e = true ->
    dispatch c e = Some c' ->
    entersLoading c c' \/ entersError c c' ->
    editedImage (state c') = None.

End Inv.
Import Inv.

(** ** Sample data *)
Module Samples.

Definition photo : File :=
  {| name := str "photo.png"; type := str "image/png" |}.

Definition notes : File :=
  {| name := str "notes.txt"; type := str "text/plain" |}.

Definition photoImage : ImageFile :=
  {| file := photo; base64 := Some (str "QUJD") |}.

Definition photoUrl : jsstring := str "data:image/png;base64,QUJD".

(** An image is stored and the prompt is the default one. *)
Definition ready : State :=
  {| originalImage := Some photoImage; editedImage := None;
     prompt := defaultPrompt; isLoading := false; error := None |}.

(** As [ready], with a prompt that has blanks around it. *)
Definition padded : State :=
  {| originalImage := Some photoImage; editedImage := None;
     prompt := str " a "; isLoading := false; error := None |}.

(** As [ready], with a prompt of blanks only and an earlier result. *)
Definition blank : State :=
  {| originalImage := Some photoImage;
     editedImage := Some (str "data:image/png;base64,abcd1234");
     prompt := str "   "; isLoading := false; error := None |}.

(** A text file is chosen while a request is under way. *)
Definition uploadWhileLoading : list Event :=
  [FileChange (Some [photo]); ReadEnds 0 (onload photoUrl); GenerateClick;
   FileChange (Some [notes])].

(** A request succeeds, then the prompt is emptied. *)
Definition resultThenEmptyPrompt : list Event :=
  [FileChange (Some [photo]); ReadEnds 0 (onload photoUrl); GenerateClick;
   EditSettles 0 (Resolved (str "abcd1234")); PromptChange []].

Definition the (o : option Config) : Config :=
  match o with
  | Some c => c
  | None => initial
  end.

(** An image was uploaded and a request is under way. *)
Definition requesting : Config :=
  the (run initial
         [FileChange (Some [photo]); ReadEnds 0 (onload photoUrl);
          GenerateClick]).

Definition photoHeader : jsstring := str "data:image/png;base64".

(** A request made from [requesting] has returned. *)
Definition served : Config :=
  the (run initial
         [FileChange (Some [photo]); ReadEnds 0 (onload photoUrl);
          GenerateClick; EditSettles 0 (Resolved (str "abcd1234"))]).

End Samples.
Import Samples.

(** ** Checks on the string primitives *)

Example str_image : str "image/" = [105; 109; 97; 103; 101; 47].
Proof. reflexivity. Qed.

Example trim_ex : trim (str "  a b ") = str "a b".
Proof. reflexivity. Qed.

Example split_ex :
  split comma (str "data:image/png;base64,QUJD") =
  [str "data:image/png;base64"; str "QUJD"].
Proof. reflexivity. Qed.

(** ** The two handlers, one invocation at a time *)

Lemma isEmpty_false (s : jsstring) : s <> [] -> isEmpty s = false.
Proof. destruct s; [congruence | reflexivity]. Qed.

Lemma isEmpty_true (s : jsstring) : s = [] -> isEmpty s = true.
Proof. intros ->. reflexivity. Qed.

(** What a valid Generate does up to its suspension. *)
Lemma generate_valid_exec (st : State) (img : ImageFile) :
  originalImage st = Some img ->
  trim (prompt st) <> [] ->
  exists k,
    exec (handleGenerateClick st) st =
      {| final := {| originalImage := Some img; editedImage := None;
                     prompt := prompt st; isLoading := true;
                     error := None |};
         trace := [Called (setIsLoading true); Called (setError None);
                   Called (setEditedImage None);
                   EditCalled (base64 img) (type (file img)) (prompt st)];
         suspended :=
           Some (AwaitEdit (base64 img) (type (file img)) (prompt st) k) |}
    /\ (forall P s,
          exec (k (Resolved P)) s =
            {| final :=
                 {| originalImage := originalImage s;
                    editedImage := Some (dataUri (type (file img)) P);
                    prompt := prompt s; isLoading := false;
                    error := error s |};
               trace :=
                 [Called (setEditedImage
                            (Some (dataUri (type (file img)) P)));
                  Called (setIsLoading false)];
               suspended := None |})
    /\ (forall M s,
          exec (k (Rejected M)) s =
            {| final :=
                 {| originalImage := originalImage s;
                    editedImage := editedImage s;
                    prompt := prompt s; isLoading := false;
                    error := Some M |};
               trace := [Called (setError (Some M));
                         Called (setIsLoading false)];
               suspended := None |}).
Proof.
  intros Himg Hp. unfold handleGenerateClick.
  rewrite Himg, (isEmpty_false _ Hp).
  eexists. split; [| split].
  - cbn [exec apply_setter final trace suspended originalImage editedImage
         prompt isLoading error]. rewrite Himg. reflexivity.
  - intros P s. reflexivity.
  - intros M s. reflexivity.
Qed.

(** C1.  A Generate whose preconditions pass and whose collaborator call
    returns the payload [P] ends with [editedImage] equal to
    [data:<type>;base64,P], where [<type>] is the type of the stored
    image's file, with [isLoading] false and [error] null; the stored
    image and the prompt are as before. *)
Theorem generate_success_result (st : State) (img : ImageFile)
    (P : jsstring) :
  originalImage st = Some img ->
  trim (prompt st) <> [] ->
  fst (runGenerate st (Resolved P)) =
    {| originalImage := Some img;
       editedImage :=
         Some (str "data:" ++ type (file img) ++ str ";base64," ++ P);
       prompt := prompt st;
       isLoading := false;
       error := None |}.
Proof.
  intros Himg Hp.
  destruct (generate_valid_exec st img Himg Hp) as (k & Hstart & Hok & _).
  unfold runGenerate. rewrite Hstart. cbn [suspended final fst].
  rewrite Hok. reflexivity.
Qed.

(** C2.  A Generate whose preconditions pass and whose collaborator call
    fails with the message [M] ends with [error] equal to [M],
    [editedImage] null and [isLoading] false. *)
Theorem generate_failure_result (st : State) (img : ImageFile)
    (M : jsstring) :
  originalImage st = Some img ->
  trim (prompt st) <> [] ->
  fst (runGenerate st (Rejected M)) =
    {| originalImage := Some img;
       editedImage := None;
       prompt := prompt st;
       isLoading := false;
       error := Some M |}.
Proof.
  intros Himg Hp.
  destruct (generate_valid_exec st img Himg Hp) as (k & Hstart & _ & Hko).
  unfold runGenerate. rewrite Hstart. cbn [suspended final fst].
  rewrite Hko. reflexivity.
Qed.

Lemma generate_success_result_witness :
  originalImage ready = Some photoImage /\
  trim (prompt ready) <> [] /\
  fst (runGenerate ready (Resolved (str "abcd1234"))) =
    {| originalImage := Some photoImage;
       editedImage := Some (str "data:image/png;base64,abcd1234");
       prompt := defaultPrompt; isLoading := false; error := None |}.
Proof.
  split; [reflexivity | split; [vm_compute; discriminate |]].
  apply (generate_success_result ready photoImage (str "abcd1234"));
    [reflexivity | vm_compute; discriminate].
Defined.

Lemma generate_failure_result_witness :
  originalImage ready = Some photoImage /\
  trim (prompt ready) <> [] /\
  fst (runGenerate ready (Rejected (str "quota exceeded"))) =
    {| originalImage := Some photoImage; editedImage := None;
       prompt := defaultPrompt; isLoading := false;
       error := Some (str "quota exceeded") |}.
Proof.
  split; [reflexivity | split; [vm_compute; discriminate |]].
  apply (generate_failure_result ready photoImage (str "quota exceeded"));
    [reflexivity | vm_compute; discriminate].
Defined.

(** The calls of the collaborator in a trace, with their arguments. *)
Lemma generate_valid_trace (st : State) (img : ImageFile)
    (r : Settled jsstring jsstring) :
  originalImage st = Some img ->
  trim (prompt st) <> [] ->
  filter isEditCall (snd (runGenerate st r)) =
    [EditCalled (base64 img) (type (file img)) (prompt st)].
Proof.
  intros Himg Hp.
  destruct (generate_valid_exec st img Himg Hp) as (k & Hstart & Hok & Hko).
  unfold runGenerate. rewrite Hstart. cbn [suspended final trace snd].
  destruct r as [P | M]; [rewrite Hok | rewrite Hko]; reflexivity.
Qed.

(** C3, as the claim states it, fails: with the prompt [" a "] the
    collaborator is not called with the trimmed text ["a"]. *)
Lemma generate_call_trimmed_counterexample :
  originalImage padded = Some photoImage /\
  trim (prompt padded) <> [] /\
  filter isEditCall (snd (runGenerate padded (Resolved (str "abcd1234"))))
    <> [EditCalled (base64 photoImage) (type (file photoImage))
          (trim (prompt padded))].
Proof.
  split; [reflexivity | split]; vm_compute; discriminate.
Qed.

(** C3, amended.  A Generate from a state with a stored image and a
    prompt whose trim is not empty calls the collaborator exactly once,
    whichever way the call ends, with the stored payload, the type of the
    stored file and the prompt as it is stored, not trimmed. *)
Theorem generate_call_once_raw_prompt (st : State) (img : ImageFile)
    (r : Settled jsstring jsstring) :
  originalImage st = Some img ->
  trim (prompt st) <> [] ->
  filter isEditCall (snd (runGenerate st r)) =
    [EditCalled (base64 img) (type (file img)) (prompt st)].
Proof.
  intros Himg Hp.
  destruct (generate_valid_exec st img Himg Hp) as (k & Hstart & Hok & Hko).
  unfold runGenerate. rewrite Hstart. cbn [suspended final trace snd].
  destruct r as [P | M]; [rewrite Hok | rewrite Hko]; reflexivity.
Qed.

Lemma generate_call_once_raw_prompt_witness :
  originalImage padded = Some photoImage /\
  trim (prompt padded) <> [] /\
  filter isEditCall (snd (runGenerate padded (Resolved (str "abcd1234")))) =
    [EditCalled (Some (str "QUJD")) (str "image/png") (str " a ")].
Proof.
  split; [reflexivity | split; [vm_compute; discriminate |]].
  apply (generate_call_once_raw_prompt padded photoImage
           (Resolved (str "abcd1234")));
    [reflexivity | vm_compute; discriminate].
Defined.

(** C4.  A Generate from a state without a stored image sets [error] to
    "Please upload an image first." and does nothing else: no call of the
    collaborator, no call of [setIsLoading], every other field as
    before. *)
Theorem generate_without_image (st : State)
    (r : Settled jsstring jsstring) :
  originalImage st = None ->
  runGenerate st r =
    ({| originalImage := None; editedImage := editedImage st;
        prompt := prompt st; isLoading := isLoading st;
        error := Some (str "Please upload an image first.") |},
     [Called (setError (Some (str "Please upload an image first.")))])
  /\ filter isEditCall (snd (runGenerate st r)) = []
  /\ filter setsLoading (snd (runGenerate st r)) = [].
Proof.
  intros Himg. unfold runGenerate, handleGenerateClick. rewrite Himg.
  cbn [exec apply_setter final trace suspended originalImage editedImage
       prompt isLoading error snd]. rewrite Himg.
  repeat split; reflexivity.
Qed.

Lemma generate_without_image_witness :
  originalImage initialState = None /\
  error (fst (runGenerate initialState (Resolved (str "abcd1234")))) =
    Some (str "Please upload an image first.").
Proof.
  split; [reflexivity |].
  destruct (generate_without_image initialState
              (Resolved (str "abcd1234")) eq_refl) as (H & _).
  rewrite H. reflexivity.
Defined.

Lemma generate_blank_run (st : State) (img : ImageFile)
    (r : Settled jsstring jsstring) :
  originalImage st = Some img ->
  trim (prompt st) = [] ->
  runGenerate st r =
    ({| originalImage := Some img; editedImage := editedImage st;
        prompt := prompt st; isLoading := isLoading st;
        error := Some (str "Please enter an editing prompt.") |},
     [Called (setError (Some (str "Please enter an editing prompt.")))]).
Proof.
  intros Himg Hp. unfold runGenerate, handleGenerateClick.
  rewrite Himg, (isEmpty_true _ Hp).
  cbn [exec apply_setter final trace suspended originalImage editedImage
       prompt isLoading error]. rewrite Himg. reflexivity.
Qed.

(** C5.  A Generate from a state with a stored image and a prompt whose
    trim is empty sets [error] to "Please enter an editing prompt.",
    makes no call of the collaborator and no call of [setIsLoading]:
    [isLoading] keeps its value in every state the handler passes
    through. *)
Theorem generate_blank_prompt (st : State) (img : ImageFile)
    (r : Settled jsstring jsstring) :
  originalImage st = Some img ->
  trim (prompt st) = [] ->
  runGenerate st r =
    ({| originalImage := Some img; editedImage := editedImage st;
        prompt := prompt st; isLoading := isLoading st;
        error := Some (str "Please enter an editing prompt.") |},
     [Called (setError (Some (str "Please enter an editing prompt.")))])
  /\ filter isEditCall (snd (runGenerate st r)) = []
  /\ filter setsLoading (snd (runGenerate st r)) = []
  /\ Forall (fun s => isLoading s = isLoading st)
       (statesAlong (snd (runGenerate st r)) st).
Proof.
  intros Himg Hp. rewrite (generate_blank_run st img r Himg Hp).
  cbn [snd filter isEditCall setsLoading statesAlong apply_setter
       isLoading].
  repeat split; repeat constructor.
Qed.

Lemma generate_blank_prompt_witness :
  originalImage blank = Some photoImage /\
  trim (prompt blank) = [] /\
  error (fst (runGenerate blank (Resolved (str "abcd1234")))) =
    Some (str "Please enter an editing prompt.") /\
  isLoading (fst (runGenerate blank (Resolved (str "abcd1234")))) = false.
Proof.
  split; [reflexivity | split; [reflexivity |]].
  destruct (generate_blank_prompt blank photoImage
              (Resolved (str "abcd1234")) eq_refl eq_refl) as (H & _).
  rewrite H. split; reflexivity.
Defined.

(** The rejection branch of the upload handler. *)
Lemma upload_rejected_exec (files : option (list File)) (st : State) :
  (firstFile files = None \/
   exists f, firstFile files = Some f /\
             startsWith (type f) (str "image/") = false) ->
  exec (handleImageUpload files) st =
    {| final :=
         {| originalImage := originalImage st;
            editedImage := editedImage st; prompt := prompt st;
            isLoading := isLoading st;
            error := Some (str "Please select a valid image file.") |};
       trace :=
         [Called (setError (Some (str "Please select a valid image file.")))];
       suspended := None |}.
Proof.
  intros [H | (f & H & Ht)]; unfold handleImageUpload; rewrite H.
  - reflexivity.
  - rewrite Ht. reflexivity.
Qed.

(** What an upload of an image-typed file does up to its suspension, and
    after it. *)
Lemma upload_image_exec (files : option (list File)) (f : File)
    (st : State) :
  firstFile files = Some f ->
  startsWith (type f) (str "image/") = true ->
  exists k,
    exec (handleImageUpload files) st =
      {| final := st; trace := [ReadStarted f];
         suspended := Some (AwaitRead f k) |}
    /\ (forall result s,
          exec (k (onload result)) s =
            {| final :=
                 {| originalImage :=
                      Some {| file := f;
                              base64 := nth_error (split comma result) 1 |};
                    editedImage := None; prompt := prompt s;
                    isLoading := isLoading s; error := None |};
               trace :=
                 [Called (setOriginalImage
                            (Some {| file := f;
                                     base64 :=
                                       nth_error (split comma result) 1 |}));
                  Called (setEditedImage None); Called (setError None)];
               suspended := None |})
    /\ (forall s,
          exec (k onerror) s =
            {| final :=
                 {| originalImage := originalImage s;
                    editedImage := editedImage s; prompt := prompt s;
                    isLoading := isLoading s;
                    error := Some (str "Failed to read the image file.") |};
               trace :=
                 [Called (setError
                            (Some (str "Failed to read the image file.")))];
               suspended := None |}).
Proof.
  intros Hf Ht. unfold handleImageUpload. rewrite Hf, Ht.
  eexists. split; [| split].
  - reflexivity.
  - intros result s. reflexivity.
  - intros s. reflexivity.
Qed.

(** C6.  An upload whose file has a type that does not start with
    "image/" is rejected before any read is started: [error] becomes
    "Please select a valid image file." and the stored image, like every
    other field, is as before. *)
Theorem upload_wrong_type (files : option (list File)) (f : File)
    (st : State) (ev : FileReaderEvent) :
  firstFile files = Some f ->
  startsWith (type f) (str "image/") = false ->
  fst (runUpload files st ev) =
    {| originalImage := originalImage st; editedImage := editedImage st;
       prompt := prompt st; isLoading := isLoading st;
       error := Some (str "Please select a valid image file.") |}
  /\ filter isRead (snd (runUpload files st ev)) = [].
Proof.
  intros Hf Ht. unfold runUpload.
  rewrite (upload_rejected_exec files st)
    by (right; exists f; split; assumption).
  split; reflexivity.
Qed.

Lemma upload_wrong_type_witness :
  firstFile (Some [notes]) = Some notes /\
  startsWith (type notes) (str "image/") = false /\
  fst (runUpload (Some [notes]) initialState (onload photoUrl)) =
    {| originalImage := None; editedImage := None;
       prompt := defaultPrompt; isLoading := false;
       error := Some (str "Please select a valid image file.") |}.
Proof.
  split; [reflexivity | split; [reflexivity |]].
  destruct (upload_wrong_type (Some [notes]) notes initialState
              (onload photoUrl) eq_refl eq_refl) as (H & _).
  exact H.
Defined.

Lemma upload_onload_run (files : option (list File)) (f : File)
    (st : State) (result : jsstring) :
  firstFile files = Some f ->
  startsWith (type f) (str "image/") = true ->
  fst (runUpload files st (onload result)) =
    {| originalImage :=
         Some {| file := f; base64 := nth_error (split comma result) 1 |};
       editedImage := None; prompt := prompt st;
       isLoading := isLoading st; error := None |}.
Proof.
  intros Hf Ht.
  destruct (upload_image_exec files f st Hf Ht) as (k & Hstart & Hok & _).
  unfold runUpload. rewrite Hstart. cbn [suspended final fst].
  rewrite Hok. reflexivity.
Qed.

(** C7.  An upload of an image-typed file whose read ends with [onload]
    replaces the stored image by the new file with the payload taken from
    the data URL, sets [editedImage] and [error] to null and leaves the
    prompt (and [isLoading]) as before. *)
Theorem upload_success (files : option (list File)) (f : File)
    (st : State) (result : jsstring) :
  firstFile files = Some f ->
  startsWith (type f) (str "image/") = true ->
  fst (runUpload files st (onload result)) =
    {| originalImage :=
         Some {| file := f; base64 := nth_error (split comma result) 1 |};
       editedImage := None;
       prompt := prompt st;
       isLoading := isLoading st;
       error := None |}.
Proof.
  intros Hf Ht.
  destruct (upload_image_exec files f st Hf Ht) as (k & Hstart & Hok & _).
  unfold runUpload. rewrite Hstart. cbn [suspended final fst].
  rewrite Hok. reflexivity.
Qed.

Lemma upload_success_witness :
  firstFile (Some [photo]) = Some photo /\
  startsWith (type photo) (str "image/") = true /\
  fst (runUpload (Some [photo]) blank (onload photoUrl)) =
    {| originalImage := Some photoImage; editedImage := None;
       prompt := str "   "; isLoading := false; error := None |}.
Proof.
  split; [reflexivity | split; [reflexivity |]].
  apply (upload_success (Some [photo]) photo blank photoUrl);
    reflexivity.
Defined.

(** C9.  An upload of an image-typed file whose read fails sets [error]
    to "Failed to read the image file."; the handler started exactly one
    read, and the stored image and [editedImage] are as before. *)
Theorem upload_read_failure (files : option (list File)) (f : File)
    (st : State) :
  firstFile files = Some f ->
  startsWith (type f) (str "image/") = true ->
  runUpload files st onerror =
    ({| originalImage := originalImage st; editedImage := editedImage st;
        prompt := prompt st; isLoading := isLoading st;
        error := Some (str "Failed to read the image file.") |},
     [ReadStarted f;
      Called (setError (Some (str "Failed to read the image file.")))])
  /\ filter isRead (snd (runUpload files st onerror)) = [ReadStarted f].
Proof.
  intros Hf Ht.
  destruct (upload_image_exec files f st Hf Ht) as (k & Hstart & _ & Hko).
  unfold runUpload. rewrite Hstart. cbn [suspended final trace].
  rewrite Hko. split; reflexivity.
Qed.

Lemma upload_read_failure_witness :
  firstFile (Some [photo]) = Some photo /\
  startsWith (type photo) (str "image/") = true /\
  fst (runUpload (Some [photo]) blank onerror) =
    {| originalImage := Some photoImage;
       editedImage := Some (str "data:image/png;base64,abcd1234");
       prompt := str "   "; isLoading := false;
       error := Some (str "Failed to read the image file.") |}.
Proof.
  split; [reflexivity | split; [reflexivity |]].
  destruct (upload_read_failure (Some [photo]) photo blank
              eq_refl eq_refl) as (H & _).
  rewrite H. reflexivity.
Defined.

(** C10.  A change event without a file (no file list, or an empty one)
    takes the rejection branch: [error] becomes
    "Please select a valid image file.", no read is started, and the
    stored image, [editedImage] and the prompt are as before. *)
Theorem upload_no_file (files : option (list File)) (st : State)
    (ev : FileReaderEvent) :
  files = None \/ files = Some [] ->
  runUpload files st ev =
    ({| originalImage := originalImage st; editedImage := editedImage st;
        prompt := prompt st; isLoading := isLoading st;
        error := Some (str "Please select a valid image file.") |},
     [Called (setError (Some (str "Please select a valid image file.")))]).
Proof.
  intros H. unfold runUpload.
  rewrite (upload_rejected_exec files st)
    by (left; destruct H as [-> | ->]; reflexivity).
  reflexivity.
Qed.

Lemma upload_no_file_witness :
  fst (runUpload (Some []) blank onerror) =
    {| originalImage := Some photoImage;
       editedImage := Some (str "data:image/png;base64,abcd1234");
       prompt := str "   "; isLoading := false;
       error := Some (str "Please select a valid image file.") |}.
Proof.
  rewrite (upload_no_file (Some []) blank onerror (or_intror eq_refl)).
  reflexivity.
Defined.

(** ** Suspended handlers *)

Lemma fromHandler_read (f : File) (k : FileReaderEvent -> Prog) :
  fromHandler (AwaitRead f k) ->
  startsWith (type f) (str "image/") = true
  /\ (forall result s,
        exec (k (onload result)) s =
          {| final :=
               {| originalImage :=
                    Some {| file := f;
                            base64 := nth_error (split comma result) 1 |};
                  editedImage := None; prompt := prompt s;
                  isLoading := isLoading s; error := None |};
             trace :=
               [Called (setOriginalImage
                          (Some {| file := f;
                                   base64 :=
                                     nth_error (split comma result) 1 |}));
                Called (setEditedImage None); Called (setError None)];
             suspended := None |})
  /\ (forall s,
        exec (k onerror) s =
          {| final :=
               apply_setter
                 (setError (Some (str "Failed to read the image file."))) s;
             trace :=
               [Called (setError
                          (Some (str "Failed to read the image file.")))];
             suspended := None |}).
Proof.
  intros H. inversion H as [files st p Hs Hp | st p Ht Hs Hp]; subst.
  - destruct (firstFile files) as [g |] eqn:Hf.
    + destruct (startsWith (type g) (str "image/")) eqn:Hg.
      * destruct (upload_image_exec files g st Hf Hg)
          as (k0 & Hstart & Hok & Hko).
        rewrite Hstart in Hs. cbn [suspended] in Hs.
        injection Hs as Hb Hk. subst g k0. auto.
      * rewrite (upload_rejected_exec files st) in Hs
          by (right; exists g; split; assumption).
        discriminate Hs.
    + rewrite (upload_rejected_exec files st) in Hs by (left; assumption).
      discriminate Hs.
  - unfold handleGenerateClick in Hs.
    destruct (originalImage st); [| discriminate Hs].
    destruct (isEmpty (trim (prompt st))); discriminate Hs.
Qed.

Lemma fromHandler_edit (b : option jsstring) (m q : jsstring)
    (k : Settled jsstring jsstring -> Prog) :
  fromHandler (AwaitEdit b m q k) ->
  startsWith m (str "image/") = true
  /\ trim q <> []
  /\ (forall P s,
        exec (k (Resolved P)) s =
          {| final :=
               {| originalImage := originalImage s;
                  editedImage := Some (dataUri m P);
                  prompt := prompt s; isLoading := false;
                  error := error s |};
             trace := [Called (setEditedImage (Some (dataUri m P)));
                       Called (setIsLoading false)];
             suspended := None |})
  /\ (forall M s,
        exec (k (Rejected M)) s =
          {| final :=
               {| originalImage := originalImage s;
                  editedImage := editedImage s;
                  prompt := prompt s; isLoading := false;
                  error := Some M |};
             trace := [Called (setError (Some M));
                       Called (setIsLoading false)];
             suspended := None |}).
Proof.
  intros H. inversion H as [files st p Hs Hp | st p Ht Hs Hp]; subst.
  - destruct (firstFile files) as [g |] eqn:Hf.
    + destruct (startsWith (type g) (str "image/")) eqn:Hg.
      * destruct (upload_image_exec files g st Hf Hg) as (k0 & Hstart & _).
        rewrite Hstart in Hs. discriminate Hs.
      * rewrite (upload_rejected_exec files st) in Hs
          by (right; exists g; split; assumption).
        discriminate Hs.
    + rewrite (upload_rejected_exec files st) in Hs by (left; assumption).
      discriminate Hs.
  - destruct (originalImage st) as [img |] eqn:Himg.
    + destruct (trim (prompt st)) as [| c t] eqn:Hp.
      * unfold handleGenerateClick in Hs. rewrite Himg, Hp in Hs.
        discriminate Hs.
      * assert (Hne : trim (prompt st) <> []) by (rewrite Hp; discriminate).
        destruct (generate_valid_exec st img Himg Hne)
          as (k0 & Hstart & Hok & Hko).
        rewrite Hstart in Hs. cbn [suspended] in Hs.
        injection Hs as Hb Hm Hq Hk. subst b m q k.
        split; [apply Ht; assumption |]. auto.
    + unfold handleGenerateClick in Hs. rewrite Himg in Hs.
      discriminate Hs.
Qed.

Lemma Forall_nth_error {A : Type} (Q : A -> Prop) (l : list A) (i : nat)
    (a : A) :
  Forall Q l -> nth_error l i = Some a -> Q a.
Proof.
  intros HF Hn. rewrite Forall_forall in HF.
  apply HF. eapply nth_error_In. eassumption.
Qed.

(** Every dispatch is one of the ten steps. *)
Lemma dispatch_Step (c c' : Config) (e : Event) :
  Forall fromHandler (pending c) ->
  imageTyped (state c) ->
  dispatch c e = Some c' ->
  Step c e c'.
Proof.
  intros HF HT Hd. destruct e as [files | v | | i ev | i r];
    cbn [dispatch] in Hd.
  - injection Hd as <-. unfold launch.
    destruct (firstFile files) as [f |] eqn:Hf.
    + destruct (startsWith (type f) (str "image/")) eqn:Hg.
      * destruct (upload_image_exec files f (state c) Hf Hg)
          as (k & Hstart & _).
        rewrite Hstart. cbn [final trace suspended optList].
        apply StepUploadStarted; try assumption.
        apply (fromUpload files (state c)). rewrite Hstart. reflexivity.
      * rewrite (upload_rejected_exec files (state c))
          by (right; exists f; split; assumption).
        cbn [final trace suspended optList]. rewrite app_nil_r.
        apply StepUploadRejected. right. exists f. split; assumption.
    + rewrite (upload_rejected_exec files (state c)) by (left; assumption).
      cbn [final trace suspended optList]. rewrite app_nil_r.
      apply StepUploadRejected. left. assumption.
  - injection Hd as <-. unfold launch, handlePromptChange.
    cbn [exec final trace suspended optList]. rewrite app_nil_r.
    apply StepPrompt.
  - injection Hd as <-. unfold launch.
    destruct (originalImage (state c)) as [img |] eqn:Himg.
    + destruct (trim (prompt (state c))) as [| a t] eqn:Hp.
      * unfold handleGenerateClick. rewrite Himg, Hp.
        cbn [isEmpty exec final trace suspended optList].
        rewrite app_nil_r.
        apply (StepGenerateBlank c img); assumption.
      * assert (Hne : trim (prompt (state c)) <> [])
          by (rewrite Hp; discriminate).
        destruct (generate_valid_exec (state c) img Himg Hne)
          as (k & Hstart & _).
        rewrite Hstart. cbn [final trace suspended optList].
        apply (StepGenerateStarted c img k); try assumption.
        apply (fromGenerate (state c)); [assumption |].
        rewrite Hstart. reflexivity.
    + unfold handleGenerateClick. rewrite Himg.
      cbn [exec final trace suspended optList]. rewrite app_nil_r.
      apply StepGenerateNoImage. assumption.
  - destruct (nth_error (pending c) i) as [[f k | b m q k] |] eqn:Hn;
      try discriminate Hd.
    injection Hd as <-. unfold launch.
    destruct (fromHandler_read f k (Forall_nth_error _ _ _ _ HF Hn))
      as (Hg & Hok & Hko).
    destruct ev as [result |].
    + rewrite Hok. cbn [final trace suspended optList]. rewrite app_nil_r.
      apply (StepReadLoaded c i f k); assumption.
    + rewrite Hko. cbn [final trace suspended optList]. rewrite app_nil_r.
      apply (StepReadFailed c i f k); assumption.
  - destruct (nth_error (pending c) i) as [[f k | b m q k] |] eqn:Hn;
      try discriminate Hd.
    injection Hd as <-. unfold launch.
    destruct (fromHandler_edit b m q k (Forall_nth_error _ _ _ _ HF Hn))
      as (Hg & _ & Hok & Hko).
    destruct r as [P | M].
    + rewrite Hok. cbn [final trace suspended optList]. rewrite app_nil_r.
      apply (StepEditResolved c i b m q k); assumption.
    + rewrite Hko. cbn [final trace suspended optList]. rewrite app_nil_r.
      apply (StepEditRejected c i b m q k); assumption.
Qed.

(** ** Invariants of the event system *)

Lemma removeNth_incl {A : Type} (i : nat) (l : list A) (a : A) :
  In a (removeNth i l) -> In a l.
Proof.
  revert i. induction l as [| b l IH]; intros [| i] H; cbn in *;
    try contradiction; auto.
  destruct H as [H | H]; [left; exact H | right; eapply IH; exact H].
Qed.

Lemma Forall_removeNth {A : Type} (Q : A -> Prop) (i : nat) (l : list A) :
  Forall Q l -> Forall Q (removeNth i l).
Proof.
  rewrite !Forall_forall. intros H a Ha.
  apply H. eapply removeNth_incl. exact Ha.
Qed.

Lemma existsb_removeNth {A : Type} (f : A -> bool) (i : nat) (l : list A) :
  existsb f (removeNth i l) = true -> existsb f l = true.
Proof.
  rewrite !existsb_exists. intros (a & Ha & Hf).
  exists a. split; [eapply removeNth_incl; exact Ha | exact Hf].
Qed.

Lemma existsb_nth_error {A : Type} (f : A -> bool) (i : nat) (l : list A)
    (a : A) :
  nth_error l i = Some a -> f a = true -> existsb f l = true.
Proof.
  intros Hn Hf. apply existsb_exists. exists a.
  split; [eapply nth_error_In; exact Hn | exact Hf].
Qed.

Lemma Good_initial : Good initial.
Proof.
  constructor; cbn; try discriminate; constructor.
Qed.

Ltac step_fields :=
  cbn [state pending log apply_setter originalImage editedImage prompt
       isLoading error] in *.

Lemma Good_Step (c c' : Config) (e : Event) :
  Good c -> Step c e c' -> Good c'.
Proof.
  intros [HP HT HL HR HE] HS.
  inversion HS; subst; constructor; step_fields; auto;
    try (apply Forall_app; split; [assumption | repeat constructor; assumption]);
    try (apply Forall_removeNth; assumption);
    try discriminate;
    try (intros Hx; apply HE; eapply existsb_removeNth; exact Hx).
  - (* an upload starts: a pending read is no pending call *)
    rewrite existsb_app. cbn. rewrite !orb_false_r. exact HE.
  - (* a Generate starts: the stored image is the one it was *)
    intros img0 Himg. step_fields. injection Himg as <-.
    apply HT. assumption.
  - (* a read ends well: the new image is of an image type *)
    intros img Himg. step_fields. injection Himg as <-. cbn. assumption.
  - (* a call of the collaborator returns *)
    intros s Hs. injection Hs as <-. split.
    + apply HE. eapply existsb_nth_error; [eassumption | reflexivity].
    + eauto.
Qed.

Lemma Good_run (es : list Event) (c c' : Config) :
  Good c -> run c es = Some c' -> Good c'.
Proof.
  revert c. induction es as [| e es IH]; intros c HG Hr; cbn in Hr.
  - injection Hr as <-. exact HG.
  - destruct (dispatch c e) as [c1 |] eqn:Hd; [| discriminate Hr].
    apply (IH c1); [| exact Hr].
    apply (Good_Step c c1 e HG).
    apply dispatch_Step; [apply HG | apply HG | exact Hd].
Qed.

Lemma reachable_Good (c : Config) : reachable c -> Good c.
Proof. intros (es & Hr). exact (Good_run es initial c Good_initial Hr). Qed.

Lemma uiRun_run (es : list Event) (c c' : Config) :
  uiRun c es = Some c' -> run c es = Some c'.
Proof.
  revert c. induction es as [| e es IH]; intros c Hr; cbn in *.
  - exact Hr.
  - destruct (allowed (state c) e); [| discriminate Hr].
    destruct (dispatch c e) as [c1 |]; [| discriminate Hr].
    apply IH. exact Hr.
Qed.

Lemma uiReachable_reachable (c : Config) : uiReachable c -> reachable c.
Proof. intros (es & Hr). exists es. apply uiRun_run. exact Hr. Qed.

Lemma filter_removeNth {A : Type} (f : A -> bool) (i : nat) (l : list A)
    (a : A) :
  nth_error l i = Some a ->
  List.length (filter f l) =
  (List.length (filter f (removeNth i l)) + if f a then 1 else 0)%nat.
Proof.
  revert i. induction l as [| b l IH]; intros [| i] H; cbn in H;
    try discriminate H.
  - injection H as ->. cbn. destruct (f a); cbn; lia.
  - cbn. specialize (IH i H). destruct (f b); cbn; lia.
Qed.

Lemma UiGood_initial : UiGood initial.
Proof. constructor; [exact Good_initial | reflexivity]. Qed.

Lemma UiGood_Step (c c' : Config) (e : Event) :
  UiGood c -> allowed (state c) e = true -> Step c e c' -> UiGood c'.
Proof.
  intros [HG H1] Ha HS.
  constructor; [exact (Good_Step c c' e HG HS) |].
  inversion HS; subst; step_fields; cbn [allowed render promptDisabled
    buttonDisabled] in Ha;
    try rewrite filter_app; try rewrite length_app;
    cbn [filter isEditPending List.length]; try rewrite Nat.add_0_r;
    try exact H1.
  - (* a Generate starts only when nothing is loading *)
    destruct (isLoading (state c)); [discriminate Ha | rewrite H1].
    reflexivity.
  - rewrite (filter_removeNth isEditPending i _ _ H) in H1.
    cbn [isEditPending] in H1. rewrite Nat.add_0_r in H1. exact H1.
  - rewrite (filter_removeNth isEditPending i _ _ H) in H1.
    cbn [isEditPending] in H1. rewrite Nat.add_0_r in H1. exact H1.
  - rewrite (filter_removeNth isEditPending i _ _ H) in H1.
    cbn [isEditPending] in H1. destruct (isLoading (state c)); lia.
  - rewrite (filter_removeNth isEditPending i _ _ H) in H1.
    cbn [isEditPending] in H1. destruct (isLoading (state c)); lia.
Qed.

Lemma UiGood_uiRun (es : list Event) (c c' : Config) :
  UiGood c -> uiRun c es = Some c' -> UiGood c'.
Proof.
  revert c. induction es as [| e es IH]; intros c HG Hr; cbn in Hr.
  - injection Hr as <-. exact HG.
  - destruct (allowed (state c) e) eqn:Ha; [| discriminate Hr].
    destruct (dispatch c e) as [c1 |] eqn:Hd; [| discriminate Hr].
    apply (IH c1); [| exact Hr].
    apply (UiGood_Step c c1 e HG Ha).
    apply dispatch_Step; [apply HG | apply HG | exact Hd].
Qed.

Lemma uiReachable_UiGood (c : Config) : uiReachable c -> UiGood c.
Proof.
  intros (es & Hr). exact (UiGood_uiRun es initial c UiGood_initial Hr).
Qed.

(** ** Loading, Error and the result *)

(** C8, as the claim states it, fails on both counts.  While a request
    is under way a text file can be chosen, which sets [error] with
    [isLoading] still true; and after a successful request a Generate
    with an emptied prompt sets [error] and leaves [editedImage] set. *)
Lemma exclusion_counterexample :
  ~ loadingErrorExclusive /\ ~ enteringClearsResult.
Proof.
  split.
  - intros H.
    destruct (uiRun initial uploadWhileLoading) as [c |] eqn:Hr;
      [| discriminate Hr].
    apply (H c); [exists uploadWhileLoading; exact Hr |].
    vm_compute in Hr. injection Hr as <-.
    split; [reflexivity | discriminate].
  - intros H.
    destruct (uiRun initial resultThenEmptyPrompt) as [c |] eqn:Hr;
      [| discriminate Hr].
    destruct (dispatch c GenerateClick) as [c' |] eqn:Hd;
      [| discriminate Hd].
    assert (Hc : uiReachable c) by (exists resultThenEmptyPrompt; exact Hr).
    vm_compute in Hr. injection Hr as <-.
    specialize (H _ GenerateClick c' Hc eq_refl Hd).
    vm_compute in Hd. injection Hd as <-.
    discriminate H.
    right. split; [reflexivity | discriminate].
Qed.

(** C8, amended.  In every reachable state [isLoading] implies that
    [editedImage] is null; every transition that enters Loading clears
    both [editedImage] and [error]; and, over what the page allows, a
    failure of the collaborator leaves [error] set to its message with
    [isLoading] false and [editedImage] null.  (Loading and Error can
    hold together, and an error of a precondition or of an upload leaves
    [editedImage] as it was.) *)
Theorem loading_hides_result :
  (forall c, reachable c ->
     isLoading (state c) = true -> editedImage (state c) = None)
  /\ (forall c e c', reachable c ->
        dispatch c e = Some c' ->
        entersLoading c c' ->
        editedImage (state c') = None /\ error (state c') = None)
  /\ (forall c i M c', uiReachable c ->
        dispatch c (EditSettles i (Rejected M)) = Some c' ->
        error (state c') = Some M /\
        isLoading (state c') = false /\
        editedImage (state c') = None).
Proof.
  split; [| split].
  - intros c Hc. apply reachable_Good. exact Hc.
  - intros c e c' Hc Hd [H0 H1].
    pose proof (reachable_Good c Hc) as HG.
    pose proof (dispatch_Step c c' e (good_pending c HG) (good_typed c HG)
                  Hd) as HS.
    inversion HS; subst; step_fields; try congruence.
    split; reflexivity.
  - intros c i M c' Hc Hd.
    pose proof (uiReachable_UiGood c Hc) as [HG H1].
    pose proof (dispatch_Step c c' _ (good_pending c HG) (good_typed c HG)
                  Hd) as HS.
    inversion HS; subst; step_fields.
    repeat split. apply (good_loading c HG).
    match goal with
    | Hn : nth_error (pending c) i = Some _ |- _ =>
        rewrite (filter_removeNth isEditPending i _ _ Hn) in H1
    end.
    cbn [isEditPending] in H1.
    destruct (isLoading (state c)); [reflexivity | lia].
Qed.

Lemma requesting_uiReachable : uiReachable requesting.
Proof.
  exists [FileChange (Some [photo]); ReadEnds 0 (onload photoUrl);
          GenerateClick].
  vm_compute. reflexivity.
Qed.

Lemma loading_hides_result_witness :
  reachable requesting /\
  isLoading (state requesting) = true /\
  editedImage (state requesting) = None.
Proof.
  assert (H : reachable requesting)
    by (apply uiReachable_reachable; exact requesting_uiReachable).
  split; [exact H | split; [reflexivity |]].
  apply (proj1 loading_hides_result requesting H). reflexivity.
Defined.

(** ** The string primitives *)

Lemma trimStart_nil_iff (s : jsstring) :
  trimStart s = [] <-> forallb isWhiteSpace s = true.
Proof.
  induction s as [| c s IH]; cbn; [tauto |].
  destruct (isWhiteSpace c); cbn; [exact IH |].
  split; discriminate.
Qed.

Lemma trimStart_head (s t : jsstring) (c : N) :
  trimStart s = c :: t -> isWhiteSpace c = false.
Proof.
  induction s as [| a s IH]; cbn; [discriminate |].
  destruct (isWhiteSpace a) eqn:Ha; [exact IH |].
  intros H. injection H as <- _. exact Ha.
Qed.

Lemma trim_nil_iff (s : jsstring) :
  trim s = [] <-> forallb isWhiteSpace s = true.
Proof.
  unfold trim, trimEnd. split.
  - intros H. apply trimStart_nil_iff.
    destruct (trimStart s) as [| c t] eqn:Hs; [reflexivity |].
    apply (f_equal (@rev N)) in H. rewrite rev_involutive in H. cbn in H.
    apply trimStart_nil_iff in H. rewrite forallb_app in H. cbn in H.
    rewrite (trimStart_head s t c Hs), andb_false_r in H. discriminate H.
  - intros H. apply trimStart_nil_iff in H. rewrite H. reflexivity.
Qed.

Lemma split_no_sep (sep : N) (s : jsstring) :
  ~ In sep s -> split sep s = [s].
Proof.
  induction s as [| c s IH]; intros H; cbn; [reflexivity |].
  destruct (N.eqb_spec c sep) as [-> | Hne].
  - exfalso. apply H. left. reflexivity.
  - rewrite IH; [reflexivity |]. intros Hin. apply H. right. exact Hin.
Qed.

Lemma split_app_sep (sep : N) (a b : jsstring) :
  ~ In sep a -> split sep (a ++ sep :: b) = a :: split sep b.
Proof.
  induction a as [| c a IH]; intros H; cbn.
  - rewrite N.eqb_refl. reflexivity.
  - destruct (N.eqb_spec c sep) as [-> | Hne].
    + exfalso. apply H. left. reflexivity.
    + rewrite IH; [reflexivity |]. intros Hin. apply H. right. exact Hin.
Qed.

(** ** More about one invocation *)

(** X1.  A Generate from a state with a stored image calls the collaborator
    exactly when some code unit of the prompt is not white space. *)
Theorem generate_calls_iff_not_blank (st : State) (img : ImageFile)
    (r : Settled jsstring jsstring) :
  originalImage st = Some img ->
  (filter isEditCall (snd (runGenerate st r)) =
     [EditCalled (base64 img) (type (file img)) (prompt st)]
   <-> forallb isWhiteSpace (prompt st) = false)
  /\ (filter isEditCall (snd (runGenerate st r)) = []
      <-> forallb isWhiteSpace (prompt st) = true).
Proof.
  intros Himg.
  destruct (forallb isWhiteSpace (prompt st)) eqn:Hw.
  - pose proof (proj2 (trim_nil_iff _) Hw) as Ht.
    rewrite (generate_blank_run st img r Himg Ht). cbn [snd filter isEditCall].
    split; split; intros H; try reflexivity; discriminate H.
  - assert (Ht : trim (prompt st) <> []).
    { intros H. apply trim_nil_iff in H. congruence. }
    rewrite (generate_valid_trace st img r Himg Ht).
    split; split; intros H; try reflexivity; discriminate H.
Qed.

Lemma generate_calls_iff_not_blank_witness :
  originalImage blank = Some photoImage /\
  filter isEditCall (snd (runGenerate blank (Resolved []))) = [].
Proof.
  split; [reflexivity |].
  apply (proj2 (generate_calls_iff_not_blank blank photoImage (Resolved [])
                  eq_refl)).
  reflexivity.
Defined.

(** X2.  An upload whose read gives a data URL with one comma, the payload
    after it, stores exactly that payload. *)
Theorem upload_stores_payload (files : option (list File)) (f : File)
    (st : State) (header payload : jsstring) :
  firstFile files = Some f ->
  startsWith (type f) (str "image/") = true ->
  ~ In comma header ->
  ~ In comma payload ->
  originalImage
    (fst (runUpload files st (onload (header ++ comma :: payload)))) =
  Some {| file := f; base64 := Some payload |}.
Proof.
  intros Hf Ht Hh Hp.
  rewrite (upload_onload_run files f st _ Hf Ht).
  cbn [originalImage].
  rewrite (split_app_sep comma header payload Hh).
  rewrite (split_no_sep comma payload Hp). reflexivity.
Qed.

(** X3.  An upload whose read gives a string without a comma (as ["data:"]
    for an empty file) still replaces the stored image; its payload is
    [undefined], and that is what a later Generate passes on. *)
Theorem upload_without_payload (files : option (list File)) (f : File)
    (st : State) (result : jsstring) (r : Settled jsstring jsstring) :
  firstFile files = Some f ->
  startsWith (type f) (str "image/") = true ->
  ~ In comma result ->
  trim (prompt st) <> [] ->
  let st' := fst (runUpload files st (onload result)) in
  originalImage st' = Some {| file := f; base64 := None |} /\
  error st' = None /\
  filter isEditCall (snd (runGenerate st' r)) =
    [EditCalled None (type f) (prompt st)].
Proof.
  intros Hf Ht Hr Hp st'. subst st'.
  rewrite (upload_onload_run files f st _ Hf Ht).
  rewrite (split_no_sep comma result Hr).
  cbn [originalImage error nth_error].
  split; [reflexivity | split; [reflexivity |]].
  match goal with
  | |- context [runGenerate ?s r] =>
      apply (generate_valid_trace s {| file := f; base64 := None |} r);
        [reflexivity | exact Hp]
  end.
Qed.

Ltac not_in :=
  let H := fresh in
  intros H; vm_compute in H;
  repeat (destruct H as [H | H]; [discriminate H |]); exact H.

Lemma upload_stores_payload_witness :
  originalImage
    (fst (runUpload (Some [photo]) initialState
            (onload (photoHeader ++ comma :: str "QUJD")))) =
  Some photoImage.
Proof.
  apply (upload_stores_payload (Some [photo]) photo initialState
           photoHeader (str "QUJD"));
    [reflexivity | reflexivity | not_in | not_in].
Defined.

Lemma upload_without_payload_witness :
  originalImage
    (fst (runUpload (Some [photo]) initialState (onload (str "data:")))) =
  Some {| file := photo; base64 := None |}.
Proof.
  apply (upload_without_payload (Some [photo]) photo initialState
           (str "data:") (Resolved []));
    [reflexivity | reflexivity | not_in | vm_compute; discriminate].
Defined.

(** ** More about reachable configurations *)

(** X4.  Over what the page allows, at most one call of the collaborator is
    outstanding, and [isLoading] is true exactly while one is. *)
Theorem one_request_at_a_time (c : Config) :
  uiReachable c ->
  (List.length (filter isEditPending (pending c)) <= 1)%nat /\
  (isLoading (state c) = true <->
   List.length (filter isEditPending (pending c)) = 1%nat).
Proof.
  intros Hc. destruct (uiReachable_UiGood c Hc) as [_ H1].
  rewrite H1. destruct (isLoading (state c)); split; try lia;
    split; intros H; try reflexivity; discriminate H.
Qed.

Lemma one_request_at_a_time_witness :
  uiReachable requesting /\
  (List.length (filter isEditPending (pending requesting)) <= 1)%nat.
Proof.
  split; [exact requesting_uiReachable |].
  apply (one_request_at_a_time requesting requesting_uiReachable).
Defined.

Lemma filter_cons_In {A : Type} (f : A -> bool) (l : list A) :
  filter f l <> [] -> exists a, In a l /\ f a = true.
Proof.
  destruct (filter f l) as [| a t] eqn:Hf; [congruence |].
  intros _. exists a. apply filter_In. rewrite Hf. left. reflexivity.
Qed.

(** X5.  Over what the page allows, Loading never gets stuck: while
    [isLoading] is true there is an outstanding call, and whichever way
    it ends [isLoading] is false and the Generate button works again. *)
Theorem loading_ends (c : Config) :
  uiReachable c ->
  isLoading (state c) = true ->
  exists i, forall r, exists c',
    dispatch c (EditSettles i r) = Some c' /\
    isLoading (state c') = false /\
    buttonDisabled (render (state c')) = false.
Proof.
  intros Hc Hl. destruct (uiReachable_UiGood c Hc) as [HG H1].
  rewrite Hl in H1.
  destruct (filter_cons_In isEditPending (pending c)) as (p & Hin & Hp).
  { intros H. rewrite H in H1. discriminate H1. }
  destruct (In_nth_error _ _ Hin) as (i & Hi).
  destruct p as [f k | b m q k]; [discriminate Hp |].
  exists i. intros r.
  assert (Hd : dispatch c (EditSettles i r) =
               Some (launch (k r) (removeNth i (pending c)) c)).
  { cbn [dispatch]. rewrite Hi. reflexivity. }
  eexists. split; [exact Hd |].
  pose proof (dispatch_Step c _ _ (good_pending c HG) (good_typed c HG) Hd)
    as HS.
  assert (Himg : originalImage (state c) <> None).
  { apply (good_edit_image c HG).
    eapply existsb_nth_error; [exact Hi | reflexivity]. }
  revert HS. generalize (launch (k r) (removeNth i (pending c)) c).
  intros c' HS. inversion HS; subst; step_fields;
    cbn [render buttonDisabled isLoading originalImage];
    (split; [reflexivity |]);
    destruct (originalImage (state c)); [reflexivity | congruence |
                                         reflexivity | congruence].
Qed.

Lemma loading_ends_witness :
  exists i, forall r, exists c',
    dispatch requesting (EditSettles i r) = Some c' /\
    isLoading (state c') = false /\
    buttonDisabled (render (state c')) = false.
Proof.
  apply (loading_ends requesting requesting_uiReachable). reflexivity.
Defined.

(** X6.  In every reachable state a result, when there is one, is a data URI
    of an image type, and an image is stored beside it. *)
Theorem result_is_image_data_uri (c : Config) (s : jsstring) :
  reachable c ->
  editedImage (state c) = Some s ->
  originalImage (state c) <> None /\
  exists m P,
    s = str "data:" ++ m ++ str ";base64," ++ P /\
    startsWith m (str "image/") = true.
Proof. intros Hc. apply (good_result c (reachable_Good c Hc)). Qed.

(** X7.  In every reachable state the stored image, when there is one, is of
    a type that starts with "image/". *)
Theorem stored_image_is_image_typed (c : Config) (img : ImageFile) :
  reachable c ->
  originalImage (state c) = Some img ->
  startsWith (type (file img)) (str "image/") = true.
Proof. intros Hc. apply (good_typed c (reachable_Good c Hc)). Qed.

Lemma stored_image_is_image_typed_witness :
  startsWith (type (file photoImage)) (str "image/") = true.
Proof.
  apply (stored_image_is_image_typed requesting photoImage);
    [apply uiReachable_reachable; exact requesting_uiReachable
    | reflexivity].
Defined.

Lemma served_reachable : reachable served.
Proof.
  exists [FileChange (Some [photo]); ReadEnds 0 (onload photoUrl);
          GenerateClick; EditSettles 0 (Resolved (str "abcd1234"))].
  vm_compute. reflexivity.
Qed.

Lemma result_is_image_data_uri_witness :
  editedImage (state served) = Some (str "data:image/png;base64,abcd1234") /\
  originalImage (state served) <> None.
Proof.
  split; [reflexivity |].
  apply (result_is_image_data_uri served
           (str "data:image/png;base64,abcd1234") served_reachable).
  reflexivity.
Defined.

Lemma defaultPrompt_not_blank : trim defaultPrompt <> [].
Proof. vm_compute. discriminate. Qed.

Lemma uiRun_cons (c c1 : Config) (e : Event) (es : list Event) :
  allowed (state c) e = true ->
  dispatch c e = Some c1 ->
  uiRun c (e :: es) = uiRun c1 es.
Proof. intros Ha Hd. cbn [uiRun]. rewrite Ha, Hd. reflexivity. Qed.

Ltac ui_step H :=
  erewrite uiRun_cons; [| | exact H]; [| reflexivity].

Ltac ui_resume H i x :=
  match goal with
  | |- context [uiRun ?c (_ :: _)] => ui_step (H c i x eq_refl)
  end.

(** An upload of an image-typed file, and the end of its read wherever
    the suspended handler then sits. *)
Lemma dispatch_upload_image (c : Config) (files : option (list File))
    (f : File) :
  firstFile files = Some f ->
  startsWith (type f) (str "image/") = true ->
  exists k,
    dispatch c (FileChange files) =
      Some {| state := state c;
              pending := pending c ++ [AwaitRead f k];
              log := log c ++ [ReadStarted f] |}
    /\ forall c2 i result,
         nth_error (pending c2) i = Some (AwaitRead f k) ->
         dispatch c2 (ReadEnds i (onload result)) =
           Some {| state :=
                     {| originalImage :=
                          Some {| file := f;
                                  base64 :=
                                    nth_error (split comma result) 1 |};
                        editedImage := None; prompt := prompt (state c2);
                        isLoading := isLoading (state c2);
                        error := None |};
                   pending := removeNth i (pending c2);
                   log := log c2 ++
                     [Called (setOriginalImage
                                (Some {| file := f;
                                         base64 :=
                                           nth_error (split comma result)
                                             1 |}));
                      Called (setEditedImage None);
                      Called (setError None)] |}.
Proof.
  intros Hf Ht.
  destruct (upload_image_exec files f (state c) Hf Ht)
    as (k & Hs & Hok & _).
  exists k. split.
  - cbn [dispatch]. unfold launch. rewrite Hs. reflexivity.
  - intros c2 i result Hn. cbn [dispatch]. rewrite Hn.
    unfold launch. rewrite Hok.
    cbn [final trace suspended optList]. rewrite app_nil_r. reflexivity.
Qed.

(** A Generate whose preconditions pass, and the return of its call
    wherever the suspended handler then sits. *)
Lemma dispatch_generate_valid (c : Config) (img : ImageFile) :
  originalImage (state c) = Some img ->
  trim (prompt (state c)) <> [] ->
  exists k,
    dispatch c GenerateClick =
      Some {| state :=
                {| originalImage := Some img; editedImage := None;
                   prompt := prompt (state c); isLoading := true;
                   error := None |};
              pending := pending c ++
                [AwaitEdit (base64 img) (type (file img))
                   (prompt (state c)) k];
              log := log c ++
                [Called (setIsLoading true); Called (setError None);
                 Called (setEditedImage None);
                 EditCalled (base64 img) (type (file img))
                   (prompt (state c))] |}
    /\ forall c2 i P,
         nth_error (pending c2) i =
           Some (AwaitEdit (base64 img) (type (file img))
                   (prompt (state c)) k) ->
         dispatch c2 (EditSettles i (Resolved P)) =
           Some {| state :=
                     {| originalImage := originalImage (state c2);
                        editedImage :=
                          Some (dataUri (type (file img)) P);
                        prompt := prompt (state c2); isLoading := false;
                        error := error (state c2) |};
                   pending := removeNth i (pending c2);
                   log := log c2 ++
                     [Called (setEditedImage
                                (Some (dataUri (type (file img)) P)));
                      Called (setIsLoading false)] |}.
Proof.
  intros Himg Hp.
  destruct (generate_valid_exec (state c) img Himg Hp)
    as (k & Hs & Hok & _).
  exists k. split.
  - cbn [dispatch]. unfold launch. rewrite Hs. reflexivity.
  - intros c2 i P Hn. cbn [dispatch]. rewrite Hn.
    unfold launch. rewrite Hok.
    cbn [final trace suspended optList]. rewrite app_nil_r. reflexivity.
Qed.

(** X8.  The whole workflow from the initial state: an image-typed file is
    chosen and read, Generate is clicked with the default prompt and the
    collaborator returns [P].  The page allows every step; the
    collaborator is called once, with the payload of the data URL, the
    type of the file and the default prompt; and the result shown is
    [data:<type>;base64,P]. *)
Theorem workflow_from_initial (f : File) (result P : jsstring) :
  startsWith (type f) (str "image/") = true ->
  exists c,
    uiRun initial
      [FileChange (Some [f]); ReadEnds 0 (onload result); GenerateClick;
       EditSettles 0 (Resolved P)] = Some c
    /\ state c =
         {| originalImage :=
              Some {| file := f;
                      base64 := nth_error (split comma result) 1 |};
            editedImage :=
              Some (str "data:" ++ type f ++ str ";base64," ++ P);
            prompt := defaultPrompt; isLoading := false; error := None |}
    /\ pending c = []
    /\ filter isEditCall (log c) =
         [EditCalled (nth_error (split comma result) 1) (type f)
            defaultPrompt]
    /\ editedPanel (render (state c)) =
         Img (str "data:" ++ type f ++ str ";base64," ++ P).
Proof.
  intros Ht.
  destruct (dispatch_upload_image initial (Some [f]) f eq_refl Ht)
    as (k1 & Hd1 & Hd2).
  ui_step Hd1.
  ui_resume Hd2 0%nat result.
  match goal with
  | |- context [uiRun ?c (GenerateClick :: _)] =>
      destruct (dispatch_generate_valid c _ eq_refl defaultPrompt_not_blank)
        as (k2 & Hd3 & Hd4)
  end.
  ui_step Hd3.
  ui_resume Hd4 0%nat P.
  eexists. split; [reflexivity |].
  repeat split.
Qed.

Lemma workflow_from_initial_witness :
  exists c,
    uiRun initial
      [FileChange (Some [photo]); ReadEnds 0 (onload photoUrl);
       GenerateClick; EditSettles 0 (Resolved (str "abcd1234"))] = Some c
    /\ editedImage (state c) = Some (str "data:image/png;base64,abcd1234").
Proof.
  destruct (workflow_from_initial photo photoUrl (str "abcd1234") eq_refl)
    as (c & Hr & Hs & _).
  exists c. split; [exact Hr |]. rewrite Hs. reflexivity.
Defined.

(** X9.  A request is not tied to the image it was made for.  When another
    image is uploaded while the request is under way and the collaborator
    then returns [P], the result shown beside the new image is built from
    the type of the old one. *)
Theorem stale_result_is_shown (f1 f2 : File) (r1 r2 P : jsstring) :
  startsWith (type f1) (str "image/") = true ->
  startsWith (type f2) (str "image/") = true ->
  exists c,
    uiRun initial
      [FileChange (Some [f1]); ReadEnds 0 (onload r1); GenerateClick;
       FileChange (Some [f2]); ReadEnds 1 (onload r2);
       EditSettles 0 (Resolved P)] = Some c
    /\ state c =
         {| originalImage :=
              Some {| file := f2; base64 := nth_error (split comma r2) 1 |};
            editedImage :=
              Some (str "data:" ++ type f1 ++ str ";base64," ++ P);
            prompt := defaultPrompt; isLoading := false; error := None |}.
Proof.
  intros Ht1 Ht2.
  destruct (dispatch_upload_image initial (Some [f1]) f1 eq_refl Ht1)
    as (k1 & Hd1 & Hd2).
  ui_step Hd1.
  ui_resume Hd2 0%nat r1.
  match goal with
  | |- context [uiRun ?c (GenerateClick :: _)] =>
      destruct (dispatch_generate_valid c _ eq_refl defaultPrompt_not_blank)
        as (k2 & Hd3 & Hd4)
  end.
  ui_step Hd3.
  match goal with
  | |- context [uiRun ?c (FileChange _ :: _)] =>
      destruct (dispatch_upload_image c (Some [f2]) f2 eq_refl Ht2)
        as (k3 & Hd5 & Hd6)
  end.
  ui_step Hd5.
  ui_resume Hd6 1%nat r2.
  ui_resume Hd4 0%nat P.
  eexists. split; reflexivity.
Qed.

Lemma stale_result_is_shown_witness :
  exists c,
    uiRun initial
      [FileChange (Some [photo]); ReadEnds 0 (onload photoUrl);
       GenerateClick;
       FileChange (Some [{| name := str "cat.gif"; type := str "image/gif" |}]);
       ReadEnds 1 (onload (str "data:image/gif;base64,R0lG"));
       EditSettles 0 (Resolved (str "abcd1234"))] = Some c
    /\ editedImage (state c) = Some (str "data:image/png;base64,abcd1234").
Proof.
  destruct (stale_result_is_shown photo
              {| name := str "cat.gif"; type := str "image/gif" |}
              photoUrl (str "data:image/gif;base64,R0lG") (str "abcd1234")
              eq_refl eq_refl) as (c & Hr & Hs).
  exists c. split; [exact Hr |]. rewrite Hs. reflexivity.
Defined.

(** X10.  Once an image is stored, no event removes it. *)
Theorem stored_image_stays (c c' : Config) (es : list Event) :
  reachable c ->
  run c es = Some c' ->
  originalImage (state c) <> None ->
  originalImage (state c') <> None.
Proof.
  intros Hc. pose proof (reachable_Good c Hc) as HG. clear Hc.
  revert c HG. induction es as [| e es IH]; intros c HG Hr Hi; cbn in Hr.
  - injection Hr as <-. exact Hi.
  - destruct (dispatch c e) as [c1 |] eqn:Hd; [| discriminate Hr].
    pose proof (dispatch_Step c c1 e (good_pending c HG) (good_typed c HG)
                  Hd) as HS.
    apply (IH c1 (Good_Step c c1 e HG HS) Hr).
    inversion HS; subst; step_fields; try assumption; discriminate.
Qed.

Lemma stored_image_stays_witness :
  originalImage (state served) <> None.
Proof.
  apply (stored_image_stays requesting served
           [EditSettles 0 (Resolved (str "abcd1234"))]).
  - apply uiReachable_reachable. exact requesting_uiReachable.
  - vm_compute. reflexivity.
  - discriminate.
Defined.

(** X11.  The prompt is changed by the text area only: every other event of a
    reachable configuration leaves it as it was. *)
Theorem prompt_changes_by_typing_only (c c' : Config) (e : Event) :
  reachable c ->
  dispatch c e = Some c' ->
  prompt (state c') =
    match e with
    | PromptChange v => v
    | _ => prompt (state c)
    end.
Proof.
  intros Hc Hd. pose proof (reachable_Good c Hc) as HG.
  pose proof (dispatch_Step c c' e (good_pending c HG) (good_typed c HG)
                Hd) as HS.
  inversion HS; subst; reflexivity.
Qed.

Lemma prompt_changes_by_typing_only_witness :
  prompt (state served) = prompt (state requesting).
Proof.
  apply (prompt_changes_by_typing_only requesting served
           (EditSettles 0 (Resolved (str "abcd1234")))).
  - apply uiReachable_reachable. exact requesting_uiReachable.
  - vm_compute. reflexivity.
Defined.

Lemma Step_counts (c c' : Config) (e : Event) :
  Step c e c' ->
  (List.length (filter isEditCall (log c')) <=
   List.length (filter isEditCall (log c)) +
   if isGenerateClick e then 1 else 0)%nat
  /\ (List.length (filter isRead (log c')) <=
      List.length (filter isRead (log c)) +
      if isFileChange e then 1 else 0)%nat.
Proof.
  intros HS. inversion HS; subst; cbn [log isGenerateClick isFileChange];
    rewrite !filter_app, !length_app; cbn; lia.
Qed.

(** X12.  Nothing is retried: from the initial configuration the collaborator
    is called at most once per click of Generate and a read is started
    at most once per change of the file input, however the reads and the
    calls end. *)
Theorem no_automatic_retry (es : list Event) (c : Config) :
  run initial es = Some c ->
  (List.length (filter isEditCall (log c)) <=
   List.length (filter isGenerateClick es))%nat
  /\ (List.length (filter isRead (log c)) <=
      List.length (filter isFileChange es))%nat.
Proof.
  assert (H : forall es c0 c1, Good c0 -> run c0 es = Some c1 ->
    (List.length (filter isEditCall (log c1)) <=
     List.length (filter isEditCall (log c0)) +
     List.length (filter isGenerateClick es))%nat
    /\ (List.length (filter isRead (log c1)) <=
        List.length (filter isRead (log c0)) +
        List.length (filter isFileChange es))%nat).
  { clear. induction es as [| e es IH]; intros c0 c1 HG Hr; cbn in Hr.
    - injection Hr as <-. cbn. lia.
    - destruct (dispatch c0 e) as [c2 |] eqn:Hd; [| discriminate Hr].
      pose proof (dispatch_Step c0 c2 e (good_pending c0 HG)
                    (good_typed c0 HG) Hd) as HS.
      destruct (IH c2 c1 (Good_Step c0 c2 e HG HS) Hr) as (I1 & I2).
      destruct (Step_counts c0 c2 e HS) as (S1 & S2).
      cbn [filter]. destruct (isGenerateClick e), (isFileChange e);
        cbn [List.length]; lia. }
  intros Hr. exact (H es initial c Good_initial Hr).
Qed.

Lemma no_automatic_retry_witness :
  (List.length (filter isEditCall (log served)) <= 1)%nat.
Proof.
  apply (no_automatic_retry
           [FileChange (Some [photo]); ReadEnds 0 (onload photoUrl);
            GenerateClick; EditSettles 0 (Resolved (str "abcd1234"))]
           served).
  vm_compute. reflexivity.
Defined.

(** X13.  In every reachable state the panel of the edited image shows the
    spinner exactly while [isLoading] is true, and shows an image exactly
    when [isLoading] is false and a result is stored; the image is that
    result. *)
Theorem result_panel (c : Config) :
  reachable c ->
  (editedPanel (render (state c)) = Spinner <-> isLoading (state c) = true)
  /\ (forall s,
        editedPanel (render (state c)) = Img s <->
        isLoading (state c) = false /\ editedImage (state c) = Some s).
Proof.
  intros Hc. pose proof (reachable_Good c Hc) as HG.
  pose proof (good_result c HG) as HR.
  cbn [render editedPanel]. unfold ImagePanel.
  destruct (isLoading (state c)).
  - split; [tauto |]. intros s. split; [discriminate | intros [H _]].
    discriminate H.
  - destruct (editedImage (state c)) as [s0 |].
    + destruct (HR s0 eq_refl) as (_ & m & P & -> & _).
      cbn [dataUri str list_ascii_of_string map app].
      split; [split; discriminate |].
      intros s. split.
      * intros H. injection H as <-. split; reflexivity.
      * intros [_ H]. injection H as <-. reflexivity.
    + split; [split; discriminate |].
      intros s. split; [discriminate | intros [_ H]; discriminate H].
Qed.

Lemma result_panel_witness :
  editedPanel (render (state requesting)) = Spinner.
Proof.
  apply (proj1 (result_panel requesting
                  (uiReachable_reachable _ requesting_uiReachable))).
  reflexivity.
Defined.

Lemma edit_rejected_state (c c' : Config) (i : nat) (M : jsstring) :
  uiReachable c ->
  dispatch c (EditSettles i (Rejected M)) = Some c' ->
  state c' =
    {| originalImage := originalImage (state c); editedImage := None;
       prompt := prompt (state c); isLoading := false; error := Some M |}.
Proof.
  intros Hc Hd.
  pose proof (uiReachable_UiGood c Hc) as [HG H1].
  pose proof (dispatch_Step c c' _ (good_pending c HG) (good_typed c HG)
                Hd) as HS.
  inversion HS; subst; step_fields.
  rewrite (good_loading c HG); [reflexivity |].
  match goal with
  | Hn : nth_error (pending c) i = Some _ |- _ =>
      rewrite (filter_removeNth isEditPending i _ _ Hn) in H1
  end.
  cbn [isEditPending] in H1.
  destruct (isLoading (state c)); [reflexivity | lia].
Qed.

(** X14.  Over what the page allows, a failure of the collaborator is shown
    in the alert exactly when its message is not empty: with the empty
    message [error] is set and the page shows neither an alert nor a
    result. *)
Theorem failure_alert (c c' : Config) (i : nat) (M : jsstring) :
  uiReachable c ->
  dispatch c (EditSettles i (Rejected M)) = Some c' ->
  error (state c') = Some M
  /\ alert (render (state c')) =
       match M with
       | [] => None
       | _ :: _ => Some M
       end
  /\ editedPanel (render (state c')) = Children.
Proof.
  intros Hc Hd. rewrite (edit_rejected_state c c' i M Hc Hd).
  cbn [render alert editedPanel error truthy isLoading editedImage
       ImagePanel].
  destruct M; repeat split.
Qed.

Lemma failure_alert_witness :
  exists c',
    dispatch requesting (EditSettles 0 (Rejected [])) = Some c' /\
    error (state c') = Some [] /\
    alert (render (state c')) = None.
Proof.
  destruct (dispatch requesting (EditSettles 0 (Rejected []))) as [c' |]
    eqn:Hd; [| vm_compute in Hd; discriminate Hd].
  exists c'. split; [reflexivity |].
  destruct (failure_alert requesting c' 0 [] requesting_uiReachable Hd)
    as (He & Ha & _).
  split; assumption.
Defined.

(** X15.  A click of Generate that the page allows never meets the check for
    a missing image: it either stops at the blank prompt or starts a
    request. *)
Theorem allowed_click_has_image (c c' : Config) :
  allowed (state c) GenerateClick = true ->
  dispatch c GenerateClick = Some c' ->
  (error (state c') = Some (str "Please enter an editing prompt.") /\
   isLoading (state c') = false /\
   editedImage (state c') = editedImage (state c))
  \/ (error (state c') = None /\
      isLoading (state c') = true /\
      editedImage (state c') = None).
Proof.
  cbn [allowed render buttonDisabled]. intros Ha Hd.
  destruct (isLoading (state c)) eqn:Hl; [discriminate Ha |].
  destruct (originalImage (state c)) as [img |] eqn:Himg;
    [| discriminate Ha].
  cbn [dispatch] in Hd. injection Hd as <-. unfold launch.
  destruct (trim (prompt (state c))) as [| a t] eqn:Hp.
  - left. unfold handleGenerateClick. rewrite Himg, Hp.
    cbn [isEmpty exec final apply_setter state error isLoading editedImage].
    repeat split. exact Hl.
  - right.
    assert (Hne : trim (prompt (state c)) <> [])
      by (rewrite Hp; discriminate).
    destruct (generate_valid_exec (state c) img Himg Hne) as (k & Hs & _).
    rewrite Hs. repeat split.
Qed.

Lemma allowed_click_has_image_witness :
  exists c',
    dispatch served GenerateClick = Some c' /\
    error (state c') = None /\ isLoading (state c') = true.
Proof.
  destruct (dispatch served GenerateClick) as [c' |] eqn:Hd;
    [| discriminate Hd].
  exists c'. split; [reflexivity |].
  destruct (allowed_click_has_image served c' eq_refl Hd)
    as [(He & _) | (He & Hl & _)].
  - vm_compute in Hd. injection Hd as <-. discriminate He.
  - split; assumption.
Defined.
